(** * LeftNavRepositorySection: the repository section of the left navigation

    A shallow embedding of
    [js_modules/dagster-ui/packages/ui-core/src/nav/LeftNavRepositorySection.tsx]
    and the properties of its render function.

    The component is a view: it reads four values of the workspace context
    and returns a tree of React elements.  The embedding keeps

    - the element tree as an inductive type, one constructor per tag or
      component the file uses; the three collaborators, imported from the
      sibling modules at lines 5, 9 and 10 ([SectionedLeftNav],
      [RepositoryLocationStateObserver], [RepoNavItem]), are leaves of the
      tree, carrying the props they receive;
    - the run-time behaviour of [x.length]: TypeScript's annotations are
      erased when the code runs, so a prop declared [DagsterRepoOption[]] may
      hold [undefined], and reading a property of [undefined] throws a
      [TypeError].  Rendering therefore returns a [Completion];
    - [React.useContext] as a read of the render environment, which also
      holds whatever else is ambient when a render runs. *)

From Stdlib Require Import List String Arith ZArith.
Import ListNotations.
Set Warnings "-register-all".
Local Open Scope string_scope.
Local Open Scope list_scope.

(** ** Completions: a render returns an element or throws *)

Inductive JsError : Type :=
| TypeError (message : string).

Inductive Completion (A : Type) : Type :=
| Normal (value : A)
| Throw (error : JsError).

Arguments Normal {A} value.
Arguments Throw {A} error.

Definition bind {A B : Type} (c : Completion A) (k : A -> Completion B)
  : Completion B :=
  match c with
  | Normal a => k a
  | Throw e => Throw e
  end.

Notation "x <- c ;; k" := (bind c (fun x => k))
  (at level 61, c at next level, right associativity).

Definition returns {A : Type} (c : Completion A) : bool :=
  match c with
  | Normal _ => true
  | Throw _ => false
  end.

(** ** Run-time values *)

(** What a variable declared [T[]] holds when the code runs: an array, as
    declared, or [undefined], a missing value.  Other values outside the
    declared type ([null], an object with a [length] of its own) are not
    modelled. *)
Inductive JsArray (A : Type) : Type :=
| undefined
| array (items : list A).

Arguments undefined {A}.
Arguments array {A} items.

(** [a.length]: the number of items of an array; a [TypeError] on
    [undefined]. *)
Definition length_of {A : Type} (a : JsArray A) : Completion nat :=
  match a with
  | array items => Normal (List.length items)
  | undefined =>
      Throw (TypeError "Cannot read properties of undefined (reading 'length')")
  end.

(** A number in condition position, [if (n)]: every number but zero is
    truthy. *)
Definition truthy (n : nat) : bool := negb (n =? 0)%nat.

(** Values of the object literals given as [style], [flex] and [padding]. *)
Inductive JsValue : Type :=
| str (s : string)
| num (n : Z).

Definition JsObject : Type := list (string * JsValue).

(** The styled [div]s the file declares, and their declarations.  The two
    colours come from [@dagster-io/ui-components]. *)
Inductive CssValue : Type :=
| css (v : string)
| colorBackgroundLight
| colorTextLighter.

Inductive StyledDiv : Type :=
| Container
| ListContainer
| EmptyState.

Definition declarations (d : StyledDiv) : list (string * CssValue) :=
  match d with
  | Container =>
      [("background", colorBackgroundLight); ("display", css "flex");
       ("flex", css "1"); ("overflow", css "none");
       ("flex-direction", css "column"); ("min-height", css "0")]
  | ListContainer =>
      [("display", css "flex"); ("flex", css "1");
       ("flex-direction", css "column"); ("min-height", css "0")]
  | EmptyState =>
      [("color", colorTextLighter); ("line-height", css "20px");
       ("padding", css "6px 24px 0")]
  end.

(** The collaborators: the three components imported from the sibling
    modules [../ui/SectionedLeftNav], [./RepositoryLocationStateObserver]
    and [./RepoNavItem].  ([Box] and [Body], of the component library, are
    nodes of the tree and not collaborators.) *)
Inductive Collaborator : Type :=
| TheSectionedLeftNav
| TheRepositoryLocationStateObserver
| TheRepoNavItem.

Definition Collaborator_eqb (a b : Collaborator) : bool :=
  match a, b with
  | TheSectionedLeftNav, TheSectionedLeftNav => true
  | TheRepositoryLocationStateObserver, TheRepositoryLocationStateObserver => true
  | TheRepoNavItem, TheRepoNavItem => true
  | _, _ => false
  end.

Section Nav.

(** [DagsterRepoOption] and [RepoAddress] are declared in
    [workspace/WorkspaceContext] and [workspace/types]; the component never
    looks inside a value of either type. *)
Variable DagsterRepoOption : Type.
Variable RepoAddress : Type.

(** [toggleVisible] returns [void]: it acts on state that the workspace
    context owns.  [World] is that state. *)
Variable World : Type.

(** Everything else that is ambient while a render runs: other contexts,
    the cells of hooks, module state. *)
Variable Ambient : Type.

Definition Handler : Type := list RepoAddress -> World -> World.

(** ** Element trees *)

Inductive Element : Type :=
| div (style : JsObject) (children : list Element)
| span (style : JsObject) (children : list Element)
| text (s : string)
| Box (flex padding : JsObject) (children : list Element)
| Body (children : list Element)
| styled (d : StyledDiv) (children : list Element)
| SectionedLeftNav
| RepositoryLocationStateObserver
| RepoNavItem (allRepos selected : JsArray DagsterRepoOption)
              (onToggle : Handler).

(** ** The props and the context *)

Record Props : Type := mkProps {
  allRepos : JsArray DagsterRepoOption;
  visibleRepos : JsArray DagsterRepoOption;
  toggleVisible : Handler
}.

(** The four values the component destructures from the context value. *)
Record ContextValue : Type := mkContextValue {
  ctx_allRepos : JsArray DagsterRepoOption;
  ctx_loading : bool;
  ctx_visibleRepos : JsArray DagsterRepoOption;
  ctx_toggleVisible : Handler
}.

Record RenderEnv : Type := mkRenderEnv {
  WorkspaceContext : ContextValue;
  ambient : Ambient
}.

(** [React.useContext(WorkspaceContext)] *)
Definition useContext_WorkspaceContext (env : RenderEnv) : ContextValue :=
  WorkspaceContext env.

(** [React.memo] decides when a component is rendered again; what a render
    returns is what the wrapped function returns. *)
Definition React_memo {P R : Type} (component : P -> R) : P -> R := component.

(** ** The component *)

Definition populatedList : Element :=
  div [("overflow", str "hidden")] [SectionedLeftNav].

Definition emptySelection : Element :=
  styled EmptyState
    [Box [("direction", str "column"); ("gap", num 8)] [("top", num 12)]
       [span [("fontSize", str "16px"); ("fontWeight", num 500)]
          [text "No definitions"];
        Body [text "Select a code location to see a list of jobs"]]].

Definition emptyWorkspace : Element :=
  styled EmptyState
    [Box [("direction", str "column"); ("gap", num 8)] [("top", num 12)]
       [span [("fontSize", str "16px"); ("fontWeight", num 500)]
          [text "No definitions"];
        Body
          [text
             "When you add a code location, your definitions will appear here"]]].

(** The closure [listContent] of [LoadedRepositorySection], with the props
    it captures as its argument. *)
Definition listContent (props : Props) : Completion Element :=
  n <- length_of (visibleRepos props) ;;
  if truthy n then Normal populatedList
  else
    m <- length_of (allRepos props) ;;
    if (0 <? m)%nat then Normal emptySelection
    else Normal emptyWorkspace.

Definition LoadedRepositorySection (props : Props) : Completion Element :=
  content <- listContent props ;;
  Normal
    (styled Container
       [styled ListContainer [content];
        RepositoryLocationStateObserver;
        RepoNavItem (allRepos props) (visibleRepos props)
                    (toggleVisible props)]).

Definition placeholder : Element := div [("flex", num 1)] [].

Definition LeftNavRepositorySection : RenderEnv -> Completion Element :=
  React_memo (fun env =>
    let ctx := useContext_WorkspaceContext env in
    if ctx_loading ctx then Normal placeholder
    else
      LoadedRepositorySection
        (mkProps (ctx_allRepos ctx) (ctx_visibleRepos ctx)
                 (ctx_toggleVisible ctx))).

(** ** Contexts as their types declare them *)

(** A context value in which the two sequences are arrays, as the
    annotations [DagsterRepoOption[]] say. *)
Record WorkspaceState : Type := mkWorkspaceState {
  ws_allRepos : list DagsterRepoOption;
  ws_loading : bool;
  ws_visibleRepos : list DagsterRepoOption;
  ws_toggleVisible : Handler
}.

Definition erase (ws : WorkspaceState) : ContextValue :=
  mkContextValue (array (ws_allRepos ws)) (ws_loading ws)
                 (array (ws_visibleRepos ws)) (ws_toggleVisible ws).

Definition provide (ws : WorkspaceState) (amb : Ambient) : RenderEnv :=
  mkRenderEnv (erase ws) amb.

Definition props_of (ws : WorkspaceState) : Props :=
  mkProps (array (ws_allRepos ws)) (array (ws_visibleRepos ws))
          (ws_toggleVisible ws).

(** ** What a tree shows *)

(** The text nodes of a tree, in document order. *)
Fixpoint texts (e : Element) : list string :=
  match e with
  | text s => [s]
  | div _ cs | span _ cs | Box _ _ cs | Body cs | styled _ cs =>
      flat_map texts cs
  | SectionedLeftNav | RepositoryLocationStateObserver
  | RepoNavItem _ _ _ => []
  end.

(** The collaborators a tree mounts, in document order. *)
Fixpoint mounted (e : Element) : list Collaborator :=
  match e with
  | text _ => []
  | div _ cs | span _ cs | Box _ _ cs | Body cs | styled _ cs =>
      flat_map mounted cs
  | SectionedLeftNav => [TheSectionedLeftNav]
  | RepositoryLocationStateObserver => [TheRepositoryLocationStateObserver]
  | RepoNavItem _ _ _ => [TheRepoNavItem]
  end.

(** The props of every selector control of a tree. *)
Fixpoint selectors (e : Element) : list Props :=
  match e with
  | text _ | SectionedLeftNav | RepositoryLocationStateObserver => []
  | div _ cs | span _ cs | Box _ _ cs | Body cs | styled _ cs =>
      flat_map selectors cs
  | RepoNavItem a s h => [mkProps a s h]
  end.

(** What the list container of a loaded section holds. *)
Definition list_content (e : Element) : option (list Element) :=
  match e with
  | styled Container (styled ListContainer content :: _) => Some content
  | _ => None
  end.

Definition shows (s : string) (e : Element) : bool :=
  existsb (String.eqb s) (texts e).

Definition mounts (c : Collaborator) (e : Element) : bool :=
  existsb (Collaborator_eqb c) (mounted e).

(** ** Render states *)

Inductive RenderState : Type :=
| LoadingPlaceholder
| Populated
| EmptySelection
| EmptyWorkspace.

(** A tree is in a render state by what it shows: the placeholder has no
    child, the populated state mounts the sectioned list, and each empty
    state shows its message. *)
Definition in_state (st : RenderState) (e : Element) : bool :=
  match st with
  | LoadingPlaceholder =>
      match e with
      | div _ [] => true
      | _ => false
      end
  | Populated => mounts TheSectionedLeftNav e
  | EmptySelection =>
      shows "Select a code location to see a list of jobs" e
  | EmptyWorkspace =>
      shows "When you add a code location, your definitions will appear here" e
  end.

Definition all_states : list RenderState :=
  [LoadingPlaceholder; Populated; EmptySelection; EmptyWorkspace].

Definition states_of (e : Element) : list RenderState :=
  filter (fun st => in_state st e) all_states.

Definition null {A : Type} (l : list A) : bool :=
  match l with
  | [] => true
  | _ :: _ => false
  end.

(** On arrays, the branch is a function of the emptiness of the two. *)
Definition content_for (visible_empty all_empty : bool) : Element :=
  if visible_empty then
    if all_empty then emptyWorkspace else emptySelection
  else populatedList.

(** ** What the wrapper passes on *)

(** A value of the context, by kind. *)
Inductive ContextField : Type :=
| repos (r : JsArray DagsterRepoOption)
| flag (b : bool)
| handler (h : Handler).

(** [{allRepos, loading, visibleRepos, toggleVisible}]: the values the
    wrapper destructures from the context, by name. *)
Definition destructured (ctx : ContextValue) : list (string * ContextField) :=
  [("allRepos", repos (ctx_allRepos ctx));
   ("loading", flag (ctx_loading ctx));
   ("visibleRepos", repos (ctx_visibleRepos ctx));
   ("toggleVisible", handler (ctx_toggleVisible ctx))].

(** The attributes of a [<LoadedRepositorySection ... />] element, by
    name. *)
Definition attributes (props : Props) : list (string * ContextField) :=
  [("allRepos", repos (allRepos props));
   ("visibleRepos", repos (visibleRepos props));
   ("toggleVisible", handler (toggleVisible props))].

(** The props the wrapper hands to the loaded section; none while
    loading. *)
Definition delegated (ctx : ContextValue) : option Props :=
  if ctx_loading ctx then None
  else
    Some (mkProps (ctx_allRepos ctx) (ctx_visibleRepos ctx)
                  (ctx_toggleVisible ctx)).

End Nav.

Arguments Element : clear implicits.
Arguments div {_ _ _} style children.
Arguments span {_ _ _} style children.
Arguments text {_ _ _} s.
Arguments Box {_ _ _} flex padding children.
Arguments Body {_ _ _} children.
Arguments styled {_ _ _} d children.
Arguments SectionedLeftNav {_ _ _}.
Arguments RepositoryLocationStateObserver {_ _ _}.
Arguments RepoNavItem {_ _ _} allRepos selected onToggle.
Arguments mkProps {_ _ _} allRepos visibleRepos toggleVisible.
Arguments allRepos {_ _ _} p.
Arguments visibleRepos {_ _ _} p.
Arguments toggleVisible {_ _ _} p.
Arguments mkContextValue {_ _ _} ctx_allRepos ctx_loading ctx_visibleRepos
  ctx_toggleVisible.
Arguments ctx_allRepos {_ _ _} c.
Arguments ctx_loading {_ _ _} c.
Arguments ctx_visibleRepos {_ _ _} c.
Arguments ctx_toggleVisible {_ _ _} c.
Arguments mkRenderEnv {_ _ _ _} WorkspaceContext ambient.
Arguments WorkspaceContext {_ _ _ _} r.
Arguments ambient {_ _ _ _} r.
Arguments useContext_WorkspaceContext {_ _ _ _} env.
Arguments populatedList {_ _ _}.
Arguments emptySelection {_ _ _}.
Arguments emptyWorkspace {_ _ _}.
Arguments placeholder {_ _ _}.
Arguments listContent {_ _ _} props.
Arguments LoadedRepositorySection {_ _ _} props.
Arguments LeftNavRepositorySection {_ _ _ _} _.
Arguments mkWorkspaceState {_ _ _} ws_allRepos ws_loading ws_visibleRepos
  ws_toggleVisible.
Arguments ws_allRepos {_ _ _} w.
Arguments ws_loading {_ _ _} w.
Arguments ws_visibleRepos {_ _ _} w.
Arguments ws_toggleVisible {_ _ _} w.
Arguments erase {_ _ _} ws.
Arguments provide {_ _ _ _} ws amb.
Arguments props_of {_ _ _} ws.
Arguments texts {_ _ _} e.
Arguments mounted {_ _ _} e.
Arguments selectors {_ _ _} e.
Arguments list_content {_ _ _} e.
Arguments shows {_ _ _} s e.
Arguments mounts {_ _ _} c e.
Arguments in_state {_ _ _} st e.
Arguments states_of {_ _ _} e.
Arguments content_for {_ _ _} visible_empty all_empty.
Arguments repos {_ _ _} r.
Arguments flag {_ _ _} b.
Arguments handler {_ _ _} h.
Arguments destructured {_ _ _} ctx.
Arguments attributes {_ _ _} props.
Arguments delegated {_ _ _} ctx.

(** ** Sample inputs

    Repositories are named by strings, a repository address is a name and a
    location, the state behind [toggleVisible] is the log of the calls it
    received, and the rest of the render environment is a counter. *)
Module Sample.

Definition Repo : Type := string.
Definition Address : Type := (string * string)%type.
Definition Log : Type := list (list Address).

(** A [toggleVisible] that records each call. *)
Definition record_call : Handler Address Log :=
  fun addresses log => log ++ [addresses].

Definition context (all : JsArray Repo) (loading : bool)
    (visible : JsArray Repo) : ContextValue Repo Address Log :=
  mkContextValue all loading visible record_call.

Definition env (all : JsArray Repo) (loading : bool)
    (visible : JsArray Repo) (amb : nat) : RenderEnv Repo Address Log nat :=
  mkRenderEnv (context all loading visible) amb.

Definition state (all : list Repo) (loading : bool) (visible : list Repo)
  : WorkspaceState Repo Address Log :=
  mkWorkspaceState all loading visible record_call.

End Sample.

(** ** Properties of the render function *)

Section Properties.

Variables DagsterRepoOption RepoAddress World Ambient : Type.

Abbreviation Elt := (Element DagsterRepoOption RepoAddress World).
Abbreviation Prp := (Props DagsterRepoOption RepoAddress World).
Abbreviation Env := (RenderEnv DagsterRepoOption RepoAddress World Ambient).
Abbreviation State := (WorkspaceState DagsterRepoOption RepoAddress World).

Implicit Types (env : Env) (ws : State) (amb : Ambient) (props : Prp)
  (tree content : Elt).

(** *** The three branches of [listContent] *)

Lemma listContent_populated props r rs :
  visibleRepos props = array (r :: rs) ->
  listContent props = Normal populatedList.
Proof.
  intros Hv. unfold listContent. rewrite Hv. reflexivity.
Qed.

Lemma listContent_emptySelection props r rs :
  visibleRepos props = array [] ->
  allRepos props = array (r :: rs) ->
  listContent props = Normal emptySelection.
Proof.
  intros Hv Ha. unfold listContent. rewrite Hv, Ha. reflexivity.
Qed.

Lemma listContent_emptyWorkspace props :
  visibleRepos props = array [] ->
  allRepos props = array [] ->
  listContent props = Normal emptyWorkspace.
Proof.
  intros Hv Ha. unfold listContent. rewrite Hv, Ha. reflexivity.
Qed.

Lemma listContent_arrays ws :
  listContent (props_of ws)
  = Normal (content_for (null (ws_visibleRepos ws)) (null (ws_allRepos ws))).
Proof.
  destruct ws as [all loading visible toggle]; cbn.
  destruct visible, all; reflexivity.
Qed.

Lemma content_for_cases b c :
  In (content_for b c : Elt)
     [populatedList; emptySelection; emptyWorkspace].
Proof.
  destruct b, c; cbn; auto.
Qed.

(** *** The two components *)

Lemma LoadedRepositorySection_returns props content :
  listContent props = Normal content ->
  LoadedRepositorySection props
  = Normal
      (styled Container
         [styled ListContainer [content];
          RepositoryLocationStateObserver;
          RepoNavItem (allRepos props) (visibleRepos props)
                      (toggleVisible props)]).
Proof.
  intros H. unfold LoadedRepositorySection. rewrite H. reflexivity.
Qed.

Lemma LoadedRepositorySection_throws props e :
  listContent props = Throw e ->
  LoadedRepositorySection props = Throw e.
Proof.
  intros H. unfold LoadedRepositorySection. rewrite H. reflexivity.
Qed.

Lemma LeftNavRepositorySection_loading env :
  ctx_loading (WorkspaceContext env) = true ->
  LeftNavRepositorySection env = Normal placeholder.
Proof.
  intros H.
  unfold LeftNavRepositorySection, React_memo, useContext_WorkspaceContext.
  rewrite H. reflexivity.
Qed.

Lemma LeftNavRepositorySection_loaded env :
  ctx_loading (WorkspaceContext env) = false ->
  LeftNavRepositorySection env
  = LoadedRepositorySection
      (mkProps (ctx_allRepos (WorkspaceContext env))
               (ctx_visibleRepos (WorkspaceContext env))
               (ctx_toggleVisible (WorkspaceContext env))).
Proof.
  intros H.
  unfold LeftNavRepositorySection, React_memo, useContext_WorkspaceContext.
  rewrite H. reflexivity.
Qed.

Lemma LeftNavRepositorySection_arrays ws amb :
  ws_loading ws = false ->
  LeftNavRepositorySection (provide ws amb)
  = Normal
      (styled Container
         [styled ListContainer
            [content_for (null (ws_visibleRepos ws)) (null (ws_allRepos ws))];
          RepositoryLocationStateObserver;
          RepoNavItem (array (ws_allRepos ws)) (array (ws_visibleRepos ws))
                      (ws_toggleVisible ws)]).
Proof.
  intros H. rewrite LeftNavRepositorySection_loaded by exact H.
  apply (LoadedRepositorySection_returns (props_of ws)).
  apply listContent_arrays.
Qed.

(** The wrapper is a gate: the placeholder while loading, the loaded section
    of the delegated props otherwise. *)
Lemma LeftNavRepositorySection_delegates env :
  LeftNavRepositorySection env
  = match delegated (WorkspaceContext env) with
    | None => Normal placeholder
    | Some props => LoadedRepositorySection props
    end.
Proof.
  unfold LeftNavRepositorySection, React_memo, useContext_WorkspaceContext,
    delegated.
  destruct (ctx_loading (WorkspaceContext env)); reflexivity.
Qed.

(** *** The claims *)

(** C1: while the context is loading, the root wrapper returns the empty
    flexible placeholder, a [div] of style [flex: 1] without children: the
    tree has no text, mounts no collaborator and holds no selector,
    and every loading context gives this same tree, whatever [allRepos] and
    [visibleRepos] hold (even [undefined]). *)
Theorem loading_renders_placeholder env :
  ctx_loading (WorkspaceContext env) = true ->
  exists tree,
    LeftNavRepositorySection env = Normal tree /\
    tree = div [("flex", num 1)] [] /\
    texts tree = [] /\ mounted tree = [] /\ selectors tree = [] /\
    forall env',
      ctx_loading (WorkspaceContext env') = true ->
      LeftNavRepositorySection env' = Normal tree.
Proof.
  intros H. exists placeholder.
  split; [apply LeftNavRepositorySection_loading; exact H | ].
  repeat split.
  intros env' H'. apply LeftNavRepositorySection_loading; exact H'.
Qed.

(** C2: when the context is not loading and [visibleRepos] is a non-empty
    array, the list container holds the populated list, the sectioned list
    inside a [div] of style [overflow: hidden], whatever [allRepos] is. *)
Theorem visible_renders_populated_list env r rs :
  ctx_loading (WorkspaceContext env) = false ->
  ctx_visibleRepos (WorkspaceContext env) = array (r :: rs) ->
  exists tree,
    LeftNavRepositorySection env = Normal tree /\
    list_content tree
    = Some [div [("overflow", str "hidden")] [SectionedLeftNav]].
Proof.
  intros Hl Hv. eexists. split.
  - rewrite LeftNavRepositorySection_loaded by exact Hl.
    apply LoadedRepositorySection_returns.
    apply (listContent_populated _ r rs). exact Hv.
  - reflexivity.
Qed.

(** C3: when the context is not loading, [visibleRepos] is the empty array
    and [allRepos] a non-empty one, the list container holds the
    empty-selection state, whose texts are exactly "No definitions" and
    "Select a code location to see a list of jobs". *)
Theorem nothing_visible_renders_empty_selection env r rs :
  ctx_loading (WorkspaceContext env) = false ->
  ctx_visibleRepos (WorkspaceContext env) = array [] ->
  ctx_allRepos (WorkspaceContext env) = array (r :: rs) ->
  exists tree content,
    LeftNavRepositorySection env = Normal tree /\
    list_content tree = Some [content] /\
    content = emptySelection /\
    texts content
    = ["No definitions"; "Select a code location to see a list of jobs"] /\
    texts tree = texts content.
Proof.
  intros Hl Hv Ha. eexists. exists emptySelection. split.
  - rewrite LeftNavRepositorySection_loaded by exact Hl.
    apply LoadedRepositorySection_returns.
    apply (listContent_emptySelection _ r rs); [exact Hv | exact Ha].
  - repeat split.
Qed.

(** C4: when the context is not loading and both [visibleRepos] and
    [allRepos] are the empty array, the list container holds the
    empty-workspace state, whose texts are exactly "No definitions" and
    "When you add a code location, your definitions will appear here". *)
Theorem no_repos_renders_empty_workspace env :
  ctx_loading (WorkspaceContext env) = false ->
  ctx_visibleRepos (WorkspaceContext env) = array [] ->
  ctx_allRepos (WorkspaceContext env) = array [] ->
  exists tree content,
    LeftNavRepositorySection env = Normal tree /\
    list_content tree = Some [content] /\
    content = emptyWorkspace /\
    texts content
    = ["No definitions";
       "When you add a code location, your definitions will appear here"] /\
    texts tree = texts content.
Proof.
  intros Hl Hv Ha. eexists. exists emptyWorkspace. split.
  - rewrite LeftNavRepositorySection_loaded by exact Hl.
    apply LoadedRepositorySection_returns.
    apply listContent_emptyWorkspace; [exact Hv | exact Ha].
  - repeat split.
Qed.

(** C5, as amended: for every context that is not loading, the loaded
    section is the container of three children: the list container with one
    of the three list contents, the location-state observer, and the
    selector control, whose [allRepos], [selected] and [onToggle] props are
    the context's [allRepos], [visibleRepos] and [toggleVisible], unchanged.
    The wrapper hands the loaded section three attributes, [allRepos],
    [visibleRepos] and [toggleVisible], each with the value the context
    holds under that name; [loading] is not among them. *)
Theorem loaded_section_mounts_observer_and_selector ws amb :
  ws_loading ws = false ->
  exists tree content props,
    LeftNavRepositorySection (provide ws amb) = Normal tree /\
    In content [populatedList; emptySelection; emptyWorkspace] /\
    tree
    = styled Container
        [styled ListContainer [content];
         RepositoryLocationStateObserver;
         RepoNavItem (ctx_allRepos (erase ws)) (ctx_visibleRepos (erase ws))
                     (ctx_toggleVisible (erase ws))] /\
    mounts TheRepositoryLocationStateObserver tree = true /\
    selectors tree
    = [mkProps (array (ws_allRepos ws)) (array (ws_visibleRepos ws))
               (ws_toggleVisible ws)] /\
    delegated (erase ws) = Some props /\
    LoadedRepositorySection props = Normal tree /\
    attributes props
    = [("allRepos", repos (ctx_allRepos (erase ws)));
       ("visibleRepos", repos (ctx_visibleRepos (erase ws)));
       ("toggleVisible", handler (ctx_toggleVisible (erase ws)))] /\
    (forall a, In a (attributes props) -> In a (destructured (erase ws))) /\
    ~ In "loading" (map fst (attributes props)).
Proof.
  intros Hl. eexists.
  exists (content_for (null (ws_visibleRepos ws)) (null (ws_allRepos ws))).
  exists (props_of ws).
  split; [apply LeftNavRepositorySection_arrays; exact Hl | ].
  split; [apply content_for_cases | ].
  split; [reflexivity | ].
  split.
  { unfold mounts; cbn.
    destruct (null (ws_visibleRepos ws)), (null (ws_allRepos ws)); reflexivity. }
  split.
  { cbn.
    destruct (null (ws_visibleRepos ws)), (null (ws_allRepos ws)); reflexivity. }
  split.
  { unfold delegated, erase; cbn. rewrite Hl. reflexivity. }
  split.
  { apply (LoadedRepositorySection_returns (props_of ws)).
    apply listContent_arrays. }
  split; [reflexivity | ].
  split.
  - intros a Ha. cbn in Ha |- *.
    destruct Ha as [<- | [<- | [<- | []]]]; auto.
  - cbn. intros [H | [H | [H | []]]]; discriminate H.
Qed.

(** C6: the handler the selector control receives is [toggleVisible]
    itself: the tree holds one selector, its [onToggle] is the context's
    [toggleVisible], and invoking it with any sequence of addresses in any
    state of the world does what [toggleVisible] does with that sequence. *)
Theorem selector_toggle_forwards_to_toggleVisible ws amb :
  ws_loading ws = false ->
  exists tree,
    LeftNavRepositorySection (provide ws amb) = Normal tree /\
    map toggleVisible (selectors tree) = [ws_toggleVisible ws] /\
    forall (addresses : list RepoAddress) (w : World),
      map (fun selector => toggleVisible selector addresses w) (selectors tree)
      = [ws_toggleVisible ws addresses w].
Proof.
  intros Hl. eexists.
  split; [apply LeftNavRepositorySection_arrays; exact Hl | ].
  split; [ | intros addresses w ]; cbn;
    destruct (null (ws_visibleRepos ws)), (null (ws_allRepos ws)); reflexivity.
Qed.

(** C7, as amended: for every context whose [allRepos] and [visibleRepos]
    are arrays, as their types declare, a render returns a tree and never
    throws; when the context is not loading and [visibleRepos] is the empty
    array, the list content is one of the two "No definitions" empty states:
    the empty-workspace state when [allRepos] is empty, the empty-selection
    state when it is not. *)
Theorem render_of_arrays_never_throws ws amb :
  exists tree,
    LeftNavRepositorySection (provide ws amb) = Normal tree /\
    (ws_loading ws = false -> ws_visibleRepos ws = [] ->
     list_content tree
     = Some [if null (ws_allRepos ws) then emptyWorkspace else emptySelection]
     /\
     texts tree
     = ["No definitions";
        if null (ws_allRepos ws)
        then "When you add a code location, your definitions will appear here"
        else "Select a code location to see a list of jobs"]).
Proof.
  destruct (ws_loading ws) eqn:Hl.
  - exists placeholder. split.
    + apply LeftNavRepositorySection_loading. exact Hl.
    + discriminate.
  - eexists. split.
    + apply LeftNavRepositorySection_arrays. exact Hl.
    + intros _ Hv. rewrite Hv. cbn.
      destruct (null (ws_allRepos ws)); split; reflexivity.
Qed.

(** C8: for every context, the render returns a tree that is in exactly one
    of the four render states: loading placeholder, populated,
    empty-selection, empty-workspace. *)
Theorem exactly_one_render_state ws amb :
  exists tree st,
    LeftNavRepositorySection (provide ws amb) = Normal tree /\
    states_of tree = [st] /\
    forall st', in_state st' tree = true <-> st' = st.
Proof.
  destruct (ws_loading ws) eqn:Hl.
  - exists placeholder, LoadingPlaceholder.
    split; [apply LeftNavRepositorySection_loading; exact Hl | ].
    split; [reflexivity | ].
    intros st'; split.
    + destruct st'; cbn; intros H; (reflexivity || discriminate H).
    + intros ->. reflexivity.
  - eexists.
    exists (if null (ws_visibleRepos ws)
            then if null (ws_allRepos ws) then EmptyWorkspace
                 else EmptySelection
            else Populated).
    split; [apply LeftNavRepositorySection_arrays; exact Hl | ].
    destruct (null (ws_visibleRepos ws)), (null (ws_allRepos ws));
      (split; [reflexivity | ]);
      (intros st'; split;
       [ destruct st'; cbn; intros H; (reflexivity || discriminate H)
       | intros ->; reflexivity ]).
Qed.

(** C10: two contexts that are not loading and agree on whether
    [visibleRepos] is empty and on whether [allRepos] is empty get the same
    list content, one of the three, and so the same render state. *)
Theorem branch_depends_only_on_emptiness ws1 ws2 amb1 amb2 :
  ws_loading ws1 = false ->
  ws_loading ws2 = false ->
  null (ws_visibleRepos ws1) = null (ws_visibleRepos ws2) ->
  null (ws_allRepos ws1) = null (ws_allRepos ws2) ->
  exists tree1 tree2 content,
    LeftNavRepositorySection (provide ws1 amb1) = Normal tree1 /\
    LeftNavRepositorySection (provide ws2 amb2) = Normal tree2 /\
    list_content tree1 = Some [content] /\
    list_content tree2 = Some [content] /\
    In content [populatedList; emptySelection; emptyWorkspace] /\
    states_of tree1 = states_of tree2.
Proof.
  intros Hl1 Hl2 Hv Ha. do 2 eexists.
  exists (content_for (null (ws_visibleRepos ws1)) (null (ws_allRepos ws1))).
  split; [apply LeftNavRepositorySection_arrays; exact Hl1 | ].
  split; [apply LeftNavRepositorySection_arrays; exact Hl2 | ].
  rewrite <- Hv, <- Ha.
  split; [reflexivity | ].
  split; [reflexivity | ].
  split; [apply content_for_cases | ].
  destruct (null (ws_visibleRepos ws1)), (null (ws_allRepos ws1)); reflexivity.
Qed.


End Properties.

(** ** The claims on sample inputs *)

Import Sample.

(** Loading, with both sequences missing: the placeholder all the same. *)
Lemma loading_renders_placeholder_witness :
  LeftNavRepositorySection (env undefined true undefined 0)
  = Normal (div [("flex", num 1)] []).
Proof.
  destruct (loading_renders_placeholder _ _ _ _
              (env undefined true undefined 0) eq_refl)
    as [tree [Hrender [Htree _]]].
  rewrite Hrender, Htree. reflexivity.
Defined.

(** One visible repository and no [allRepos] at all. *)
Lemma visible_renders_populated_list_witness :
  exists tree,
    LeftNavRepositorySection (env undefined false (array ["jobs@prod"]) 0)
    = Normal tree /\
    list_content tree
    = Some [div [("overflow", str "hidden")] [SectionedLeftNav]].
Proof.
  apply (visible_renders_populated_list _ _ _ _
           (env undefined false (array ["jobs@prod"]) 0) "jobs@prod" []);
    reflexivity.
Defined.

(** [allRepos = [A, B]], [visibleRepos = []], [loading = false]. *)
Lemma nothing_visible_renders_empty_selection_witness :
  exists tree,
    LeftNavRepositorySection (env (array ["A"; "B"]) false (array []) 0)
    = Normal tree /\
    texts tree
    = ["No definitions"; "Select a code location to see a list of jobs"].
Proof.
  destruct (nothing_visible_renders_empty_selection _ _ _ _
              (env (array ["A"; "B"]) false (array []) 0) "A" ["B"]
              eq_refl eq_refl eq_refl)
    as [tree [content [Hrender [_ [_ [Htexts Hsame]]]]]].
  exists tree. split; [exact Hrender | ].
  rewrite Hsame. exact Htexts.
Defined.

(** [allRepos = []], [visibleRepos = []], [loading = false]. *)
Lemma no_repos_renders_empty_workspace_witness :
  exists tree,
    LeftNavRepositorySection (env (array []) false (array []) 0)
    = Normal tree /\
    texts tree
    = ["No definitions";
       "When you add a code location, your definitions will appear here"].
Proof.
  destruct (no_repos_renders_empty_workspace _ _ _ _
              (env (array []) false (array []) 0) eq_refl eq_refl eq_refl)
    as [tree [content [Hrender [_ [_ [Htexts Hsame]]]]]].
  exists tree. split; [exact Hrender | ].
  rewrite Hsame. exact Htexts.
Defined.

(** [allRepos = [A, B]], [visibleRepos = [A]]: the selector receives both,
    and the loaded section three attributes. *)
Lemma loaded_section_mounts_observer_and_selector_witness :
  exists tree props,
    LeftNavRepositorySection (provide (state ["A"; "B"] false ["A"]) 0)
    = Normal tree /\
    mounts TheRepositoryLocationStateObserver tree = true /\
    selectors tree
    = [mkProps (array ["A"; "B"]) (array ["A"]) record_call] /\
    delegated (erase (state ["A"; "B"] false ["A"])) = Some props /\
    map fst (attributes props) = ["allRepos"; "visibleRepos"; "toggleVisible"].
Proof.
  destruct (loaded_section_mounts_observer_and_selector _ _ _ _
              (state ["A"; "B"] false ["A"]) 0 eq_refl)
    as [tree [content [props
         [Hrender [_ [_ [Hobserver [Hselector [Hprops [_ [Hattrs _]]]]]]]]]]].
  exists tree, props. split; [exact Hrender | ].
  split; [exact Hobserver | ].
  split; [exact Hselector | ].
  split; [exact Hprops | ].
  rewrite Hattrs. reflexivity.
Defined.

(** C5, as stated, fails: the context holds four values and the wrapper
    passes three on.  With [allRepos = [A, B]], [visibleRepos = [A]] and
    [loading = false], the loaded section is rendered from props whose
    attributes are [allRepos], [visibleRepos] and [toggleVisible]; the
    context's [loading] is not passed on. *)
Lemma loading_is_not_passed_on :
  exists props,
    delegated (context (array ["A"; "B"]) false (array ["A"])) = Some props /\
    LeftNavRepositorySection (env (array ["A"; "B"]) false (array ["A"]) 0)
    = LoadedRepositorySection props /\
    map fst (destructured (context (array ["A"; "B"]) false (array ["A"])))
    = ["allRepos"; "loading"; "visibleRepos"; "toggleVisible"] /\
    map fst (attributes props) = ["allRepos"; "visibleRepos"; "toggleVisible"] /\
    ~ (forall a,
         In a (destructured (context (array ["A"; "B"]) false (array ["A"]))) ->
         In a (attributes props)).
Proof.
  eexists. split; [reflexivity | ].
  split; [reflexivity | ].
  split; [reflexivity | ].
  split; [reflexivity | ].
  intros H.
  destruct (H ("loading", flag false)) as [E | [E | [E | []]]];
    [right; left; reflexivity | discriminate E ..].
Qed.

(** With a [toggleVisible] that records its calls: toggling two addresses
    through the selector leaves one call in the log, with the two addresses
    in the order given. *)
Lemma selector_toggle_forwards_to_toggleVisible_witness :
  exists tree,
    LeftNavRepositorySection (provide (state ["A"; "B"] false ["A"]) 0)
    = Normal tree /\
    map (fun selector =>
           toggleVisible selector [("B", "prod"); ("A", "prod")] [])
        (selectors tree)
    = [[[("B", "prod"); ("A", "prod")]]].
Proof.
  destruct (selector_toggle_forwards_to_toggleVisible _ _ _ _
              (state ["A"; "B"] false ["A"]) 0 eq_refl)
    as [tree [Hrender [_ Hinvoke]]].
  exists tree. split; [exact Hrender | ].
  rewrite Hinvoke. reflexivity.
Defined.

(** C7, as stated, fails: with [loading = false] and [visibleRepos]
    undefined the render throws a [TypeError] and returns no tree, and so
    does [allRepos] undefined under an empty [visibleRepos]. *)
Lemma undefined_repos_throw :
  LeftNavRepositorySection (env (array ["A"]) false undefined 0)
  = Throw (TypeError "Cannot read properties of undefined (reading 'length')")
  /\
  LeftNavRepositorySection (env undefined false (array []) 0)
  = Throw (TypeError "Cannot read properties of undefined (reading 'length')")
  /\
  ~ (forall e : RenderEnv Repo Address Log nat,
       exists tree, LeftNavRepositorySection e = Normal tree).
Proof.
  split; [reflexivity | ].
  split; [reflexivity | ].
  intros H.
  destruct (H (env (array ["A"]) false undefined 0)) as [tree Htree].
  discriminate Htree.
Qed.

(** Different repositories, in different numbers, both lists non-empty. *)
Lemma branch_depends_only_on_emptiness_witness :
  exists tree1 tree2,
    LeftNavRepositorySection (provide (state ["A"; "B"] false ["A"]) 0)
    = Normal tree1 /\
    LeftNavRepositorySection
      (provide (state ["X"; "Y"; "Z"] false ["Z"; "X"]) 1)
    = Normal tree2 /\
    list_content tree1 = list_content tree2.
Proof.
  destruct (branch_depends_only_on_emptiness _ _ _ _
              (state ["A"; "B"] false ["A"])
              (state ["X"; "Y"; "Z"] false ["Z"; "X"]) 0 1
              eq_refl eq_refl eq_refl eq_refl)
    as [tree1 [tree2 [content [H1 [H2 [Hc1 [Hc2 _]]]]]]].
  exists tree1, tree2. split; [exact H1 | ].
  split; [exact H2 | ].
  rewrite Hc1, Hc2. reflexivity.
Defined.

(** ** Further properties: errors, mounted components, texts, states *)

Section Further.

Variables DagsterRepoOption RepoAddress World Ambient : Type.

Abbreviation FElt := (Element DagsterRepoOption RepoAddress World).
Abbreviation FEnv := (RenderEnv DagsterRepoOption RepoAddress World Ambient).
Abbreviation FState := (WorkspaceState DagsterRepoOption RepoAddress World).

Implicit Types (env : FEnv) (ws : FState) (amb : Ambient) (tree : FElt).

(** X1: among the contexts whose [allRepos] and [visibleRepos] are each an
    array or [undefined], a render throws exactly when the context is not
    loading and a [length] is read from [undefined]: [visibleRepos] is
    undefined, or [visibleRepos] is the empty array and [allRepos] is
    undefined.  While loading nothing is read, and under a non-empty
    [visibleRepos] an undefined [allRepos] is never read. *)
Theorem render_throws_exactly_on_undefined_length env :
  returns (LeftNavRepositorySection env) = false <->
  ctx_loading (WorkspaceContext env) = false /\
  (ctx_visibleRepos (WorkspaceContext env) = undefined \/
   (ctx_visibleRepos (WorkspaceContext env) = array [] /\
    ctx_allRepos (WorkspaceContext env) = undefined)).
Proof.
  destruct env as [[all loading visible toggle] amb]; cbn.
  unfold LeftNavRepositorySection, React_memo; cbn.
  destruct loading; cbn.
  - split; [discriminate | intros [H _]; discriminate].
  - destruct visible as [|[|v vs]]; cbn.
    + split; auto.
    + destruct all as [|[|a l]]; cbn.
      * split; auto.
      * split; [discriminate | ].
        intros [_ [H | [_ H]]]; discriminate.
      * split; [discriminate | ].
        intros [_ [H | [_ H]]]; discriminate.
    + split; [discriminate | ].
      intros [_ [H | [H _]]]; discriminate.
Qed.

(** X2: of the three collaborators ([SectionedLeftNav],
    [RepositoryLocationStateObserver], [RepoNavItem]), the ones a returned
    tree mounts, in order: none while loading; otherwise the sectioned list
    when [visibleRepos] has an item, then one location-state observer, then
    one selector. *)
Theorem mounted_components_of_render env tree :
  LeftNavRepositorySection env = Normal tree ->
  mounted tree
  = if ctx_loading (WorkspaceContext env) then []
    else
      match ctx_visibleRepos (WorkspaceContext env) with
      | array (_ :: _) => [TheSectionedLeftNav]
      | _ => []
      end ++ [TheRepositoryLocationStateObserver; TheRepoNavItem].
Proof.
  destruct env as [[all loading visible toggle] amb].
  unfold LeftNavRepositorySection, React_memo; cbn.
  destruct loading; cbn.
  - intros H. injection H as <-. reflexivity.
  - destruct visible as [|[|v vs]]; cbn.
    + discriminate.
    + destruct all as [|[|a l]]; cbn; intros H;
        [discriminate H | injection H as <-; reflexivity
        | injection H as <-; reflexivity].
    + intros H. injection H as <-. reflexivity.
Qed.

(** X3: the text a render shows, for every context of arrays: nothing while
    loading and nothing when a repository is visible; otherwise the heading
    "No definitions" followed by one message, chosen by whether [allRepos]
    is empty. *)
Theorem texts_of_render ws amb :
  exists tree,
    LeftNavRepositorySection (provide ws amb) = Normal tree /\
    texts tree
    = if ws_loading ws then []
      else if null (ws_visibleRepos ws) then
        ["No definitions";
         if null (ws_allRepos ws)
         then "When you add a code location, your definitions will appear here"
         else "Select a code location to see a list of jobs"]
      else [].
Proof.
  destruct (ws_loading ws) eqn:Hl.
  - exists placeholder.
    split; [apply LeftNavRepositorySection_loading; exact Hl | reflexivity].
  - eexists.
    split; [apply LeftNavRepositorySection_arrays; exact Hl | ].
    destruct (null (ws_visibleRepos ws)), (null (ws_allRepos ws)); reflexivity.
Qed.

(** X4: each render state is produced only under its own condition, for
    every context of arrays: the placeholder exactly when loading; the
    populated list exactly when not loading with a visible repository; the
    empty-selection state exactly when not loading with no visible
    repository and some repository; the empty-workspace state exactly when
    not loading with no repository visible and none known. *)
Theorem render_state_reveals_context ws amb :
  exists tree,
    LeftNavRepositorySection (provide ws amb) = Normal tree /\
    (in_state LoadingPlaceholder tree = true <-> ws_loading ws = true) /\
    (in_state Populated tree = true <->
     ws_loading ws = false /\ ws_visibleRepos ws <> []) /\
    (in_state EmptySelection tree = true <->
     ws_loading ws = false /\ ws_visibleRepos ws = [] /\ ws_allRepos ws <> []) /\
    (in_state EmptyWorkspace tree = true <->
     ws_loading ws = false /\ ws_visibleRepos ws = [] /\ ws_allRepos ws = []).
Proof.
  destruct ws as [all loading visible toggle].
  destruct loading.
  - exists placeholder.
    split; [apply LeftNavRepositorySection_loading; reflexivity | ].
    cbn. repeat split; try discriminate; intros [H _]; discriminate H.
  - eexists.
    split; [apply LeftNavRepositorySection_arrays; reflexivity | ].
    cbn [ws_loading ws_visibleRepos ws_allRepos].
    destruct visible as [|v vs], all as [|a l]; cbn;
      repeat split; try discriminate; try congruence;
      try (intros [_ H]; tauto);
      try (intros [_ [H1 H2]]; congruence).
Qed.

End Further.

(** An undefined [allRepos] under a visible repository: the tree mounts the
    sectioned list, the observer and the selector. *)
Lemma mounted_components_of_render_witness :
  exists tree,
    LeftNavRepositorySection (env undefined false (array ["A"]) 0)
    = Normal tree /\
    mounted tree
    = [TheSectionedLeftNav; TheRepositoryLocationStateObserver;
       TheRepoNavItem].
Proof.
  eexists. split; [reflexivity | ].
  apply (mounted_components_of_render _ _ _ _
           (env undefined false (array ["A"]) 0)).
  reflexivity.
Defined.
